(** * ngTemplateOutlet tutorial: the list and card components

    A shallow embedding of the two presentational components of the
    repository, [ListComponent] (selector [app-list]) and [CardComponent]
    (selector [app-card]), together with the part of the host framework
    their inline templates rely on: the rendered tree, template references,
    and the directives [ngForOf], [ngTemplateOutlet] and [ngIf]. *)

From stdpp Require Import gmap strings list pretty.

Open Scope string_scope.

(** ** The rendered tree *)

(** A context object is a JavaScript object used as a map from property
    names to values, [{ $implicit: item }] in the list component.  A node
    of the rendered tree is a text node, an element with its attributes and
    children, or an embedded view: the result of stamping a template
    reference, which keeps the context it was created with and its root
    nodes (the framework's [EmbeddedViewRef.context] and [rootNodes]).
    The context is the framework's record of the view, not part of the
    document: the browser holds the root nodes only, so equality of trees
    is finer than equality of what is shown. *)
#[warnings="-register-all"]
Inductive Node (V : Type) : Type :=
| Text (s : string)
| Element (tag : string) (attrs : list (string * string)) (children : list (Node V))
| View (context : gmap string V) (rootNodes : list (Node V)).

Arguments Text {V} s.
Arguments Element {V} tag attrs children.
Arguments View {V} context rootNodes.

(** [TemplateRef]: caller-defined rendering logic; it is opaque to the
    components and only ever instantiated with a context. *)
Definition TemplateRef (V : Type) : Type := gmap string V → list (Node V).

(** [EmbeddedViewRef]: what the view container records for a stamped
    template. *)
Record EmbeddedViewRef (V : Type) : Type := mkViewRef {
  context : gmap string V;
  rootNodes : list (Node V)
}.

Arguments mkViewRef {V} context rootNodes.
Arguments context {V} _.
Arguments rootNodes {V} _.

Section Framework.
Context {V : Type}.

Implicit Types (n : Node V) (ns : list (Node V)) (ctx : gmap string V).

(** [TemplateRef.createEmbeddedView(context)]. *)
Definition createEmbeddedView (t : TemplateRef V) ctx : Node V :=
  View ctx (t ctx).

(** [NgTemplateOutlet] on an [ng-container]: when the bound template is
    absent (null or undefined) nothing is inserted, otherwise one
    embedded view of it is created with the bound context.  The
    container itself leaves no element in the tree. *)
Definition ngTemplateOutlet (t : option (TemplateRef V)) ctx : list (Node V) :=
  match t with
  | Some t => [createEmbeddedView t ctx]
  | None => []
  end.

(** [NgForOf]: one copy of the host element per member of the iterable,
    in iteration order, with [let item] bound to the member; a null or
    undefined iterable gives no copy. *)
Definition ngForOf {A : Type} (iterable : option (list A)) (body : A → Node V)
  : list (Node V) :=
  match iterable with
  | Some l => map body l
  | None => []
  end.

(** Text of a subtree, [Node.textContent]. *)
Fixpoint textContent n : string :=
  match n with
  | Text s => s
  | Element _ _ children =>
      (fix go ns := match ns with [] => "" | m :: ns => textContent m ++ go ns end) children
  | View _ roots =>
      (fix go ns := match ns with [] => "" | m :: ns => textContent m ++ go ns end) roots
  end.

(** The embedded views of a subtree in document order.  The walk stops at
    a view: what a caller's template puts inside its own view belongs to
    the caller. *)
Fixpoint embeddedViews n : list (EmbeddedViewRef V) :=
  match n with
  | Text _ => []
  | Element _ _ children =>
      (fix go ns := match ns with [] => [] | m :: ns => (embeddedViews m ++ go ns)%list end) children
  | View ctx roots => [mkViewRef ctx roots]
  end.

Definition viewsOf ns : list (EmbeddedViewRef V) := flat_map embeddedViews ns.

Definition textOf ns : string := foldr (λ n acc, textContent n ++ acc) "" ns.

Definition viewText (v : EmbeddedViewRef V) : string := textOf (rootNodes v).

End Framework.

(** ** [ListComponent] *)

Section List.
Context {V : Type}.

(** The two inputs of the class; an input that was never bound is
    undefined, hence the options. *)
Record ListComponent : Type := {
  data : option (list V);
  itemTemplate : option (TemplateRef V)
}.

(** The inline template of the component.  White space between the tags
    leaves no text node, as with the framework's default compiler
    options. *)
Definition ListComponent_template (c : ListComponent) : Node V :=
  Element "ul" [("class", "list")]
    (ngForOf (data c) (λ item,
       Element "li" [("class", "list-item")]
         (ngTemplateOutlet (itemTemplate c) {[ "$implicit" := item ]}))).

End List.

Arguments ListComponent V : clear implicits.

(** What reading a property of an object gives: a value the object holds
    itself, a member inherited from [Object.prototype], or undefined. *)
Inductive PropertyRead (V : Type) : Type :=
| OwnValue (v : V)
| InheritedMember (name : string)
| NoValue.

Arguments OwnValue {V} v.
Arguments InheritedMember {V} name.
Arguments NoValue {V}.

(** The property names every plain object inherits. *)
Definition objectPrototype : list string :=
  [ "constructor"; "hasOwnProperty"; "isPrototypeOf"; "propertyIsEnumerable";
    "toLocaleString"; "toString"; "valueOf"; "__proto__";
    "__defineGetter__"; "__defineSetter__"; "__lookupGetter__"; "__lookupSetter__" ].

(** A mounted [app-list].  [nativeElement] is the content of the host
    element, the output region the component owns.  The component is
    [ChangeDetectionStrategy.OnPush]: a change-detection pass refreshes the
    region only when the component is marked dirty, which happens at
    creation and whenever an input is bound to a new value. *)
Record ListFixture (V : Type) : Type := {
  componentInstance : ListComponent V;
  dirty : bool;
  nativeElement : list (Node V)
}.

Arguments componentInstance {V} _.
Arguments dirty {V} _.
Arguments nativeElement {V} _.

Section ChangeDetection.
Context {V : Type}.

Implicit Types (f : ListFixture V) (S : list V) (T : option (TemplateRef V)).

(** The list element with nothing in it. *)
Definition emptyList : list (Node V) := [Element "ul" [("class", "list")] []].

(** The wrapper the template puts around every outlet. *)
Definition listItem (ns : list (Node V)) : Node V :=
  Element "li" [("class", "list-item")] ns.

(** A component just created: no input is bound yet, the static part of
    the template, the list element, is already in place, and the first
    pass is still to come. *)
Definition createComponent : ListFixture V :=
  {| componentInstance := {| data := None; itemTemplate := None |};
     dirty := true;
     nativeElement := emptyList |}.

(** Binding the [data] input to a new array. *)
Definition setData S f : ListFixture V :=
  {| componentInstance :=
       {| data := Some S; itemTemplate := itemTemplate (componentInstance f) |};
     dirty := true;
     nativeElement := nativeElement f |}.

(** Binding the [itemTemplate] input; [None] leaves it absent. *)
Definition setItemTemplate T f : ListFixture V :=
  {| componentInstance :=
       {| data := data (componentInstance f); itemTemplate := T |};
     dirty := true;
     nativeElement := nativeElement f |}.

(** One change-detection pass over the component. *)
Definition detectChanges f : ListFixture V :=
  if dirty f then
    {| componentInstance := componentInstance f;
       dirty := false;
       nativeElement := [ListComponent_template (componentInstance f)] |}
  else f.

(** The parent changes the content of the array it has bound (push, pop,
    splice) without binding a new one: the [data] field, the same array,
    holds the new content, and nothing marks the component dirty. *)
Definition mutateData (g : list V → list V) f : ListFixture V :=
  {| componentInstance :=
       {| data := g <$> data (componentInstance f);
          itemTemplate := itemTemplate (componentInstance f) |};
     dirty := dirty f;
     nativeElement := nativeElement f |}.

(** Configure the renderer with [items] and [template], then render. *)
Definition mount S T : ListFixture V :=
  detectChanges (setItemTemplate T (setData S createComponent)).

Definition render S T : list (Node V) := nativeElement (mount S T).

(** The item a view received in the default slot of its context. *)
Definition implicitOf (v : EmbeddedViewRef V) : option V :=
  context v !! "$implicit".

(** Reading a property of a context object.  The context is a plain
    object, so a name it does not hold itself is looked up in
    [Object.prototype]. *)
Definition getProperty (ctx : gmap string V) (key : string) : PropertyRead V :=
  match ctx !! key with
  | Some v => OwnValue v
  | None =>
      if bool_decide (key ∈ objectPrototype) then InheritedMember key else NoValue
  end.

(** How a template variable reads the context: [let-x] takes the default
    slot, [let-x="key"] takes the property [key]. *)
Definition letBinding (key : option string) (ctx : gmap string V) : PropertyRead V :=
  getProperty ctx (default "$implicit" key).

(** The view the list component stamps for one item. *)
Definition itemView (t : TemplateRef V) (item : V) : EmbeddedViewRef V :=
  mkViewRef {[ "$implicit" := item ]} (t {[ "$implicit" := item ]}).

End ChangeDetection.

(** ** [CardComponent] *)

Section Card.
Context {V : Type}.

(** [title: string | TemplateRef<HTMLElement>], undefined while the input
    is not bound. *)
Inductive TitleInput : Type :=
| TitleString (s : string)
| TitleTemplate (t : TemplateRef V)
| TitleUndefined.

Record CardComponent : Type := { title : TitleInput }.

Definition typeof (x : TitleInput) : string :=
  match x with
  | TitleString _ => "string"
  | TitleTemplate _ => "object"
  | TitleUndefined => "undefined"
  end.

(** [isTitleAString = () => typeof this.title == 'string'] *)
Definition isTitleAString (c : CardComponent) : bool :=
  String.eqb (typeof (title c)) "string".

(** The interpolation [{{ title }}]. *)
Definition interpolate (x : TitleInput) : string :=
  match x with
  | TitleString s => s
  | TitleTemplate _ => "[object Object]"
  | TitleUndefined => ""
  end.

(** The value bound to [ngTemplateOutlet] read as a template reference.
    The string case is never reached: the outlet sits in the else branch
    of [isTitleAString()]. *)
Definition asTemplateRef (x : TitleInput) : option (TemplateRef V) :=
  match x with
  | TitleTemplate t => Some t
  | TitleString _ | TitleUndefined => None
  end.

(** [NgIf] with an else template: the directive holds at most one of
    its two views. *)
Record NgIf : Type := {
  thenViewRef : option (list (Node V));
  elseViewRef : option (list (Node V))
}.

Definition ngIf (condition : bool) (thenTemplate : list (Node V))
    (elseTemplate : option (list (Node V))) : NgIf :=
  if condition then {| thenViewRef := Some thenTemplate; elseViewRef := None |}
  else {| thenViewRef := None; elseViewRef := elseTemplate |}.

Definition ngIfNodes (d : NgIf) : list (Node V) :=
  default [] (thenViewRef d) ++ default [] (elseViewRef d).

(** [<ng-template #titleTemplateWrapper>]: an outlet bound to [title],
    with no context. *)
Definition titleTemplateWrapper (c : CardComponent) : list (Node V) :=
  ngTemplateOutlet (asTemplateRef (title c)) ∅.

(** [<header *ngIf="isTitleAString(); else titleTemplateWrapper">]. *)
Definition titleDispatch (c : CardComponent) : NgIf :=
  ngIf (isTitleAString c)
    [Element "header" [] [Text (interpolate (title c))]]
    (Some (titleTemplateWrapper c)).

(** The inline template; [content] is what the caller projects through
    [<ng-content>]. *)
Definition CardComponent_template (c : CardComponent) (content : list (Node V))
  : Node V :=
  Element "div" [("class", "card")]
    (ngIfNodes (titleDispatch c) ++ [Element "article" [] content]).

End Card.

Arguments TitleInput V : clear implicits.
Arguments CardComponent V : clear implicits.
Arguments NgIf V : clear implicits.

(** ** Numbers *)

(** The numbers of the tutorial's data are small integers.  A JavaScript
    number is a double; the model keeps the safe integers, those of
    absolute value at most [2^53 - 1], which a double holds exactly and
    which are shown as plain decimal digits, after a minus sign when
    negative. *)
Definition MAX_SAFE_INTEGER : Z := 2 ^ 53 - 1.

Record SafeInteger : Type := mkSafeInteger {
  toZ : Z;
  isSafeInteger : (Z.abs toZ <=? MAX_SAFE_INTEGER)%Z = true
}.

(** [Number.prototype.toString] on a safe integer. *)
Definition numberToString (n : SafeInteger) : string := pretty (toZ n).

(** ** The scenario of the tutorial *)

Record Product : Type := { id : SafeInteger; name : string }.

(** A caller template showing [{{ item.id }} - {{ item.name }}] for the
    item it receives through [let-item].  The list always supplies the
    item; the branch without one only makes the function total. *)
Definition idNameTemplate : TemplateRef Product := λ ctx,
  match letBinding None ctx with
  | OwnValue item => [Text (numberToString (id item) ++ " - " ++ name item)]
  | _ => []
  end.

Definition products : list Product :=
  [ {| id := mkSafeInteger 4 eq_refl; name := "Laptop" |};
    {| id := mkSafeInteger 5 eq_refl; name := "Phone" |} ].

(** ** Histories of a mounted list *)

(** What the framework does to a mounted [app-list]: the parent binds one
    of the two inputs to a new value, or a change-detection pass runs.
    Changes made inside the bound array are events of their own, see
    [ListEvent]. *)
Inductive ListOp (V : Type) : Type :=
| BindData (items : list V)
| BindItemTemplate (t : option (TemplateRef V))
| DetectChanges.

Arguments BindData {V} items.
Arguments BindItemTemplate {V} t.
Arguments DetectChanges {V}.

Definition step {V : Type} (f : ListFixture V) (op : ListOp V) : ListFixture V :=
  match op with
  | BindData items => setData items f
  | BindItemTemplate t => setItemTemplate t f
  | DetectChanges => detectChanges f
  end.

(** The fixture after a history, oldest event first, starting from the
    freshly created component. *)
Definition run {V : Type} (ops : list (ListOp V)) : ListFixture V :=
  foldl step createComponent ops.

(** Everything that can happen to a mounted [app-list]: an event of the
    framework, or the parent changing the bound array in place. *)
Inductive ListEvent (V : Type) : Type :=
| Bound (op : ListOp V)
| MutateData (g : list V → list V).

Arguments Bound {V} op.
Arguments MutateData {V} g.

Definition stepEvent {V : Type} (f : ListFixture V) (ev : ListEvent V)
  : ListFixture V :=
  match ev with
  | Bound op => step f op
  | MutateData g => mutateData g f
  end.

Definition runEvents {V : Type} (evs : list (ListEvent V)) : ListFixture V :=
  foldl stepEvent createComponent evs.

(** No event of the history changes the bound array in place. *)
Definition noMutation {V : Type} (evs : list (ListEvent V)) : bool :=
  forallb (λ ev, match ev with Bound _ => true | MutateData _ => false end) evs.

(** The value a history bound last to [data], if it bound any. *)
Definition lastData {V : Type} (ops : list (ListOp V)) : option (list V) :=
  last (omap (λ op, match op with BindData items => Some items | _ => None end) ops).

(** The value a history bound last to [itemTemplate]; binding an absent
    template counts like no binding. *)
Definition lastItemTemplate {V : Type} (ops : list (ListOp V))
  : option (TemplateRef V) :=
  default None
    (last (omap (λ op, match op with BindItemTemplate t => Some t | _ => None end) ops)).

(** The texts of a sequence of views put end to end. *)
Definition joinText (l : list string) : string := foldr String.append "" l.

(** ** The snippets of the tutorial text *)

(** Snippet 2: a child component stamps a template of its parent with the
    context [{ $implicit: 'Joe', age: 42 }]; the parent template is
    [<ng-template #someTemplate let-name let-age="age">] around
    [<p>{{ name }} - {{ age }}</p>]. *)
Module Snippet2.

Inductive JsValue : Type :=
| JsString (s : string)
| JsNumber (n : SafeInteger).

(** What an inherited member shows as: [__proto__] is an object,
    [constructor] is the function [Object], every other member is a
    native function of its own name. *)
Definition inheritedText (member : string) : string :=
  if String.eqb member "__proto__" then "[object Object]"
  else if String.eqb member "constructor" then "function Object() { [native code] }"
  else "function " ++ member ++ "() { [native code] }".

(** An interpolation [{{ e }}] shows a string as it is, a number by
    [toString], and nothing for an undefined value. *)
Definition interpolation (v : PropertyRead JsValue) : string :=
  match v with
  | OwnValue (JsString s) => s
  | OwnValue (JsNumber n) => numberToString n
  | InheritedMember member => inheritedText member
  | NoValue => ""
  end.

Definition context : gmap string JsValue :=
  {[ "$implicit" := JsString "Joe"; "age" := JsNumber (mkSafeInteger 42 eq_refl) ]}.

Definition someTemplate : TemplateRef JsValue := λ ctx,
  [Element "p" []
     [Text (interpolation (letBinding None ctx) ++ " - "
            ++ interpolation (letBinding (Some "age") ctx))]].

(** The child component: an outlet bound to the parent's template and to
    the context object. *)
Definition ChildComponent_template
    (templateRefFromParentComponent : option (TemplateRef JsValue))
    (context : gmap string JsValue) : list (Node JsValue) :=
  ngTemplateOutlet templateRefFromParentComponent context.

End Snippet2.

(** Snippet 3.2: the parent of [app-list] passes rated products and the
    template [#item], which shows the id, the name in bold and the rating
    of the item it receives through [let-item].  White space follows the
    framework's default: a text node of white space only is dropped and a
    run of white space inside a text node is one blank. *)
Module Snippet3.

Record Item : Type := { id : SafeInteger; name : string; rating : SafeInteger }.

Definition item : TemplateRef Item := λ ctx,
  match letBinding None ctx with
  | OwnValue item =>
      [Element "div" [("style", "display: flex; justify-content: space-between;")]
         [Element "span" []
            [Text (" " ++ numberToString (id item) ++ " - ");
             Element "b" [] [Text (name item)]];
          Element "mark" [] [Text (" Stars: " ++ numberToString (rating item) ++ " ")]]]
  | _ => []
  end.

Definition data : list Item :=
  [ {| id := mkSafeInteger 4 eq_refl; name := "Laptop"; rating := mkSafeInteger 3 eq_refl |};
    {| id := mkSafeInteger 5 eq_refl; name := "Phone"; rating := mkSafeInteger 4 eq_refl |};
    {| id := mkSafeInteger 6 eq_refl; name := "Mice"; rating := mkSafeInteger 4 eq_refl |} ].

(** What one row of the list reads. *)
Definition rowText (p : Item) : string :=
  " " ++ numberToString (id p) ++ " - " ++ name p
  ++ " Stars: " ++ numberToString (rating p) ++ " ".

End Snippet3.

(** ** Properties *)

Section FrameworkFacts.
Context {V : Type}.

Implicit Types (ns : list (Node V)) (T : TemplateRef V).

Lemma embeddedViews_Element tag attrs ns :
  embeddedViews (Element tag attrs ns) = viewsOf ns.
Proof.
  unfold viewsOf. simpl.
  induction ns as [|n ns IH]; simpl; [done|]. by rewrite IH.
Qed.

Lemma textContent_Element tag attrs ns :
  textContent (Element tag attrs ns) = textOf ns.
Proof.
  unfold textOf. simpl.
  induction ns as [|n ns IH]; simpl; [done|]. by rewrite IH.
Qed.

Lemma viewsOf_cons (n : Node V) ns :
  viewsOf (n :: ns) = (embeddedViews n ++ viewsOf ns)%list.
Proof. done. Qed.

Lemma viewsOf_outlet_Some T ctx :
  viewsOf (ngTemplateOutlet (Some T) ctx) = [mkViewRef ctx (T ctx)].
Proof. done. Qed.

Lemma viewsOf_outlet_None ctx :
  viewsOf (ngTemplateOutlet (None : option (TemplateRef V)) ctx) = [].
Proof. done. Qed.

End FrameworkFacts.

Section ListFacts.
Context {V : Type}.

Implicit Types (S : list V) (T : TemplateRef V) (f : ListFixture V).

Lemma render_unfold S (T : option (TemplateRef V)) :
  render S T =
  [Element "ul" [("class", "list")]
     ((λ item, listItem (ngTemplateOutlet T {[ "$implicit" := item ]})) <$> S)].
Proof. done. Qed.

Lemma viewsOf_items_Some S T :
  viewsOf ((λ item, listItem (ngTemplateOutlet (Some T) {[ "$implicit" := item ]})) <$> S)
  = itemView T <$> S.
Proof.
  induction S as [|item S IH]; [done|].
  rewrite !fmap_cons, viewsOf_cons, IH.
  unfold listItem. by rewrite embeddedViews_Element, viewsOf_outlet_Some.
Qed.

Lemma viewsOf_items_None S :
  viewsOf ((λ item, listItem (ngTemplateOutlet (None : option (TemplateRef V))
                                {[ "$implicit" := item ]})) <$> S) = [].
Proof.
  induction S as [|item S IH]; [done|].
  rewrite fmap_cons, viewsOf_cons, IH.
  unfold listItem. by rewrite embeddedViews_Element, viewsOf_outlet_None.
Qed.

Lemma viewsOf_render_Some S T : viewsOf (render S (Some T)) = itemView T <$> S.
Proof.
  rewrite render_unfold, viewsOf_cons, embeddedViews_Element, viewsOf_items_Some.
  apply app_nil_r.
Qed.

Lemma viewsOf_render_None S : viewsOf (render S None) = [].
Proof.
  rewrite render_unfold, viewsOf_cons, embeddedViews_Element, viewsOf_items_None.
  done.
Qed.

Lemma implicitOf_itemView T (item : V) : implicitOf (itemView T item) = Some item.
Proof. unfold implicitOf, itemView. simpl. apply lookup_singleton_eq. Qed.

(** C1: for every item sequence [S] and template [T], rendering produces
    exactly [length S] views, and the view at each position is the
    template instantiated on the item at that position of [S]: its context
    holds that item in the default slot and its root nodes are what [T]
    gives on that context (beyond the end of [S] there is neither a view
    nor an item). *)
Theorem render_one_view_per_item S T :
  length (viewsOf (render S (Some T))) = length S ∧
  ∀ i,
    viewsOf (render S (Some T)) !! i ≫= implicitOf = S !! i ∧
    viewsOf (render S (Some T)) !! i =
      (λ item, mkViewRef {[ "$implicit" := item ]} (T {[ "$implicit" := item ]}))
        <$> S !! i.
Proof.
  rewrite viewsOf_render_Some. split.
  - apply length_fmap.
  - intros i. rewrite list_lookup_fmap. split; [|done].
    destruct (S !! i) as [item|]; simpl; [apply implicitOf_itemView | done].
Qed.

(** C3: rendering is one ordered pass over [items]: the list element
    holds, in sequence order, one wrapper per item around the outlet
    bound to that item, and the views found in the output are, in the
    same order, the template stamped with the context
    [{ $implicit: item }]. *)
Theorem render_ordered_traversal S T :
  render S (Some T) =
    [Element "ul" [("class", "list")]
       ((λ item, listItem [createEmbeddedView T {[ "$implicit" := item ]}]) <$> S)] ∧
  viewsOf (render S (Some T)) =
    (λ item, mkViewRef {[ "$implicit" := item ]} (T {[ "$implicit" := item ]})) <$> S.
Proof. split; [done | apply viewsOf_render_Some]. Qed.

(** C4: rendering the empty sequence produces no view, whatever the
    template is, present or absent. *)
Theorem render_nil_no_views (T : option (TemplateRef V)) :
  viewsOf (render [] T) = [] ∧ render [] T = emptyList.
Proof. by destruct T. Qed.

End ListFacts.

(** C8: for the items [{id:4,name:"Laptop"}] and [{id:5,name:"Phone"}] and
    a template showing the id, a dash and the name, rendering produces
    exactly two views, with the texts "4 - Laptop" and "5 - Phone" in that
    order. *)
Theorem render_products :
  viewText <$> viewsOf (render products (Some idNameTemplate))
  = ["4 - Laptop"; "5 - Phone"].
Proof. vm_compute. reflexivity. Qed.

Section AbsentTemplate.
Context {V : Type}.

Implicit Types (S : list V).

Lemma render_None_items S :
  render S None = [Element "ul" [("class", "list")] (replicate (length S) (listItem []))].
Proof.
  rewrite render_unfold. do 2 f_equal.
  induction S as [|item S IH]; [done|].
  rewrite fmap_cons. cbn [length replicate]. by rewrite IH.
Qed.

Lemma textOf_replicate_listItem n :
  textOf (replicate n (listItem ([] : list (Node V)))) = "".
Proof. induction n as [|n IH]; simpl; [done|]. exact IH. Qed.

(** C2: with an absent template, rendering any sequence [S] returns
    normally and its output, the sequence of rendered views, is empty: no
    view is produced and nothing is shown, the list element holding only
    the empty list-item wrappers of the items. *)
Theorem render_absent_template S :
  viewsOf (render S None) = [] ∧
  textOf (render S None) = "" ∧
  render S None =
    [Element "ul" [("class", "list")] (replicate (length S) (listItem []))].
Proof.
  split; [apply viewsOf_render_None|].
  split; [|apply render_None_items].
  rewrite render_None_items. unfold textOf at 1. cbn [foldr].
  rewrite textContent_Element, textOf_replicate_listItem. done.
Qed.

End AbsentTemplate.

Section Passes.
Context {V : Type}.

Implicit Types (S : list V) (f : ListFixture V).

Lemma detectChanges_clean f : dirty (detectChanges f) = false.
Proof. unfold detectChanges. by destruct (dirty f) eqn:E. Qed.

Lemma detectChanges_componentInstance f :
  componentInstance (detectChanges f) = componentInstance f.
Proof. unfold detectChanges. by destruct (dirty f). Qed.

(** C5: rendering is idempotent.  A second pass over any fixture changes
    nothing; in particular after [render S T] a further pass, with the
    inputs untouched or bound again to the same values, leaves the output
    equal to that of the first call. *)
Theorem render_idempotent f S (T : option (TemplateRef V)) :
  detectChanges (detectChanges f) = detectChanges f ∧
  nativeElement (detectChanges (mount S T)) = render S T ∧
  detectChanges (setItemTemplate T (setData S (mount S T))) = mount S T.
Proof.
  split; [|done].
  unfold detectChanges at 1. by rewrite detectChanges_clean.
Qed.

(** C6: a render pass writes the output region only: the [data] and
    [itemTemplate] inputs of the component are the same after the pass
    as before it, and after [render S T] they are still [S] and [T]. *)
Theorem render_leaves_inputs f S (T : option (TemplateRef V)) :
  data (componentInstance (detectChanges f)) = data (componentInstance f) ∧
  itemTemplate (componentInstance (detectChanges f))
    = itemTemplate (componentInstance f) ∧
  data (componentInstance (mount S T)) = Some S ∧
  itemTemplate (componentInstance (mount S T)) = T.
Proof. rewrite detectChanges_componentInstance. done. Qed.

(** C7: after [items] is replaced by a shorter sequence [S'] and the
    component is rendered again, exactly [length S'] views remain, the
    surplus [length S - length S'] (at least one) is gone, each remaining
    view is bound to the item at its position in [S'], and the output is
    the one a fresh render of [S'] gives. *)
Theorem replace_by_shorter S S' (T : TemplateRef V) :
  length S' < length S →
  let before := mount S (Some T) in
  let after := detectChanges (setData S' before) in
  length (viewsOf (nativeElement after)) = length S' ∧
  length (viewsOf (nativeElement before))
    = length (viewsOf (nativeElement after)) + (length S - length S') ∧
  0 < length S - length S' ∧
  (∀ i, viewsOf (nativeElement after) !! i ≫= implicitOf = S' !! i) ∧
  nativeElement after = render S' (Some T).
Proof.
  intros Hlt before after.
  assert (nativeElement after = render S' (Some T)) as Hafter by done.
  assert (nativeElement before = render S (Some T)) as Hbefore by done.
  rewrite Hafter, Hbefore.
  rewrite !viewsOf_render_Some, !length_fmap.
  repeat split; [lia | lia |].
  intros i. rewrite list_lookup_fmap.
  destruct (S' !! i) as [item|]; simpl; [apply implicitOf_itemView | done].
Qed.

End Passes.

(** A run of [replace_by_shorter]: three items replaced by two. *)
Lemma replace_by_shorter_witness :
  length [1; 2] < length [1; 2; 3] ∧
  nativeElement
    (detectChanges (setData [1; 2] (mount [1; 2; 3] (Some (λ _, [Text "row"])))))
  = render [1; 2] (Some (λ _, [Text "row"])).
Proof.
  split; [simpl; lia|].
  apply (replace_by_shorter [1; 2; 3] [1; 2] (λ _, [Text "row"])).
  simpl; lia.
Defined.

Section OutletContext.
Context {V : Type}.

Implicit Types (S : list V) (T : TemplateRef V).

Lemma letBinding_implicit (item : V) :
  letBinding None {[ "$implicit" := item ]} = OwnValue item.
Proof. unfold letBinding, getProperty. simpl. by rewrite lookup_singleton_eq. Qed.

Lemma letBinding_named (item : V) key :
  key ≠ "$implicit" →
  letBinding (Some key) {[ "$implicit" := item ]} =
  if bool_decide (key ∈ objectPrototype) then InheritedMember key else NoValue.
Proof.
  intros Hne. unfold letBinding, getProperty. simpl.
  by rewrite lookup_singleton_ne.
Qed.

(** C9, as amended: every view is the template instantiated on a context
    that holds exactly one binding of its own, the key [$implicit] with
    the current item.  A template variable without a key reads that item.
    A variable naming any other key reads no value, unless the key names
    a member every object inherits from [Object.prototype] ([toString],
    [constructor] and the like), which it then reads. *)
Theorem outlet_context_only_implicit S T :
  Forall2
    (λ item v,
       v = mkViewRef {[ "$implicit" := item ]} (T {[ "$implicit" := item ]}) ∧
       dom (context v) = {[ "$implicit" ]} ∧
       size (context v) = 1 ∧
       letBinding None (context v) = OwnValue item ∧
       ∀ key, key ≠ "$implicit" →
         letBinding (Some key) (context v) =
         if bool_decide (key ∈ objectPrototype) then InheritedMember key else NoValue)
    S (viewsOf (render S (Some T))).
Proof.
  rewrite viewsOf_render_Some. apply Forall2_fmap_r, Forall_Forall2_diag.
  apply Forall_forall. intros item _. simpl.
  split; [done|].
  split; [apply dom_singleton_L|].
  split; [apply map_size_singleton|].
  split; [apply letBinding_implicit|].
  apply letBinding_named.
Qed.

End OutletContext.

(** C9, as stated, fails: in the views rendered for the two products a
    template variable bound to the key [toString] does not read "no
    value", it reads the function every object inherits. *)
Lemma named_binding_reads_inherited_member :
  ¬ Forall (λ v, letBinding (Some "toString") (context v) = NoValue)
      (viewsOf (render products (Some idNameTemplate))).
Proof.
  intros H. apply Forall_cons in H as [H _]. vm_compute in H. discriminate H.
Qed.

Section CardFacts.
Context {V : Type}.

Implicit Types (c : CardComponent V) (content : list (Node V)).

Lemma isTitleAString_spec c :
  isTitleAString c = true ↔ ∃ s, title c = TitleString s.
Proof.
  unfold isTitleAString. destruct (title c) as [s|t|]; simpl.
  - split; [eauto | done].
  - split; [done | intros [s Hs]; done].
  - split; [done | intros [s Hs]; done].
Qed.

(** C10, as amended: the title of the card is dispatched by a total
    two-way branch.  The header branch is taken exactly when [title] is a
    string, the wrapper branch otherwise, and exactly one of the two is
    taken for any [title].  A string is shown as the text of the header.
    Any other title is handed to the outlet of the wrapper: a template
    reference is instantiated, on an empty context, in the place of the
    header, while an unbound title leaves the outlet with nothing to
    instantiate, so that the card then shows neither header nor view. *)
Theorem card_title_dispatch c content (s : string) (t : TemplateRef V) :
  (isTitleAString c = true ↔ ∃ s', title c = TitleString s') ∧
  (is_Some (thenViewRef (titleDispatch c)) ↔ ∃ s', title c = TitleString s') ∧
  (is_Some (elseViewRef (titleDispatch c)) ↔ ¬ ∃ s', title c = TitleString s') ∧
  (is_Some (thenViewRef (titleDispatch c)) ↔
     ¬ is_Some (elseViewRef (titleDispatch c))) ∧
  CardComponent_template {| title := TitleString s |} content =
    Element "div" [("class", "card")]
      [Element "header" [] [Text s]; Element "article" [] content] ∧
  CardComponent_template {| title := TitleTemplate t |} content =
    Element "div" [("class", "card")]
      [View ∅ (t ∅); Element "article" [] content] ∧
  CardComponent_template {| title := TitleUndefined |} content =
    Element "div" [("class", "card")] [Element "article" [] content].
Proof.
  split; [apply isTitleAString_spec|].
  rewrite <- !isTitleAString_spec.
  unfold titleDispatch, ngIf.
  destruct (isTitleAString c); simpl.
  - split; [by split; eauto|].
    split; [by split; [intros [x Hx] | ]|].
    split; [|done].
    split; [by intros _ [x Hx] | eauto].
  - split; [by split; [intros [x Hx] | ]|].
    split; [by split; eauto|].
    split; [|done].
    split; [by intros [x Hx] | intros Hn; destruct Hn; eauto].
Qed.

End CardFacts.

(** ** Further properties of the components *)

Lemma string_app_nil_r (s : string) : s ++ "" = s.
Proof.
  induction s as [|a s IH]; [done|].
  change (String a (s ++ "") = String a s). by rewrite IH.
Qed.

Lemma string_app_assoc (s1 s2 s3 : string) : (s1 ++ s2) ++ s3 = s1 ++ s2 ++ s3.
Proof.
  induction s1 as [|a s1 IH]; [done|].
  change (String a ((s1 ++ s2) ++ s3) = String a (s1 ++ s2 ++ s3)). by rewrite IH.
Qed.

Section TreeFacts.
Context {V : Type}.

Implicit Types (n : Node V) (ns : list (Node V)).

Lemma textOf_cons n ns : textOf (n :: ns) = textContent n ++ textOf ns.
Proof. done. Qed.

Lemma textOf_app ns1 ns2 : textOf (ns1 ++ ns2)%list = textOf ns1 ++ textOf ns2.
Proof.
  induction ns1 as [|n ns1 IH]; [done|].
  rewrite <- app_comm_cons, !textOf_cons, IH. by rewrite string_app_assoc.
Qed.

Lemma textOf_singleton n : textOf [n] = textContent n.
Proof. rewrite textOf_cons. apply string_app_nil_r. Qed.

Lemma textContent_View (ctx : gmap string V) ns :
  textContent (View ctx ns) = textOf ns.
Proof.
  unfold textOf. simpl.
  induction ns as [|n ns IH]; simpl; [done|]. by rewrite IH.
Qed.

Lemma viewsOf_app ns1 ns2 : viewsOf (ns1 ++ ns2)%list = (viewsOf ns1 ++ viewsOf ns2)%list.
Proof. apply flat_map_app. Qed.

Lemma viewsOf_singleton n : viewsOf [n] = embeddedViews n.
Proof. unfold viewsOf. simpl. apply app_nil_r. Qed.

End TreeFacts.

Section ListMore.
Context {V : Type}.

Implicit Types (S : list V) (T : option (TemplateRef V)) (f : ListFixture V).

(** The rows of the list for a template that may be absent. *)
Lemma render_rows S T :
  render S T =
  [Element "ul" [("class", "list")]
     (listItem <$> ((λ item, ngTemplateOutlet T {[ "$implicit" := item ]}) <$> S))].
Proof. rewrite render_unfold. by rewrite <- list_fmap_compose. Qed.


Lemma viewsOf_render S T :
  viewsOf (render S T) =
  match T with Some t => itemView t <$> S | None => [] end.
Proof. destruct T; [apply viewsOf_render_Some | apply viewsOf_render_None]. Qed.

Lemma textOf_render S T :
  textOf (render S T) =
  joinText ((λ item, textOf (ngTemplateOutlet T {[ "$implicit" := item ]})) <$> S).
Proof.
  rewrite render_unfold, textOf_singleton, textContent_Element.
  induction S as [|item S IH]; [done|].
  rewrite !fmap_cons, textOf_cons, IH.
  unfold listItem at 1. by rewrite textContent_Element.
Qed.

Lemma joinText_app (l1 l2 : list string) :
  joinText (l1 ++ l2)%list = joinText l1 ++ joinText l2.
Proof.
  induction l1 as [|s l1 IH]; [done|].
  simpl. by rewrite IH, string_app_assoc.
Qed.

(** X2: rendering distributes over concatenation of the items: the views
    and the text of [S1 ++ S2] are those of [S1] followed by those of
    [S2], so items appended at the end leave what the earlier items
    produce as it was. *)
Theorem render_app S1 S2 T :
  viewsOf (render (S1 ++ S2) T) = (viewsOf (render S1 T) ++ viewsOf (render S2 T))%list ∧
  textOf (render (S1 ++ S2) T) = textOf (render S1 T) ++ textOf (render S2 T).
Proof.
  split.
  - rewrite !viewsOf_render. destruct T; [apply fmap_app | done].
  - rewrite !textOf_render, fmap_app. apply joinText_app.
Qed.

(** X3: the text shown by the list is the text of the template stamped
    on each item, put end to end in the order of the items; the list
    itself contributes no text. *)
Theorem render_text S (t : TemplateRef V) :
  textOf (render S (Some t)) =
  joinText ((λ item, textOf (t {[ "$implicit" := item ]})) <$> S).
Proof.
  rewrite textOf_render. f_equal. apply list_fmap_ext. intros _ item _.
  unfold ngTemplateOutlet, createEmbeddedView.
  by rewrite textOf_singleton, textContent_View.
Qed.

End ListMore.

Section Histories.
Context {V : Type}.

Implicit Types (S : list V) (T : option (TemplateRef V)) (f : ListFixture V)
  (ops : list (ListOp V)).

Lemma run_snoc ops op : run (ops ++ [op]) = step (run ops) op.
Proof. unfold run. apply foldl_snoc. Qed.

Lemma run_in_sync ops :
  dirty (run ops) = false →
  nativeElement (run ops) = [ListComponent_template (componentInstance (run ops))].
Proof.
  induction ops as [|op ops IH] using rev_ind; [done|].
  rewrite run_snoc. destruct op as [items|t|]; simpl; [done | done |].
  unfold detectChanges. destruct (dirty (run ops)) eqn:E; [done|].
  intros _. by apply IH.
Qed.

Lemma detectChanges_run ops :
  nativeElement (detectChanges (run ops))
  = [ListComponent_template (componentInstance (run ops))].
Proof.
  unfold detectChanges. destruct (dirty (run ops)) eqn:E; [done|].
  by apply run_in_sync.
Qed.

Lemma run_inputs ops :
  componentInstance (run ops)
  = {| data := lastData ops; itemTemplate := lastItemTemplate ops |}.
Proof.
  induction ops as [|op ops IH] using rev_ind; [done|].
  rewrite run_snoc. unfold lastData, lastItemTemplate in *.
  rewrite !omap_app.
  destruct op as [items|t|]; simpl.
  - rewrite last_snoc, app_nil_r, IH. done.
  - rewrite last_snoc, app_nil_r, IH. done.
  - rewrite !app_nil_r, detectChanges_componentInstance. exact IH.
Qed.

(** X5: as long as [data] has not been bound, whatever was done to the
    [itemTemplate] input and however many passes ran, rendering gives the
    list element with nothing in it and no view. *)
Theorem unbound_data_renders_nothing ops :
  data (componentInstance (run ops)) = None →
  nativeElement (detectChanges (run ops)) = emptyList ∧
  viewsOf (nativeElement (detectChanges (run ops))) = [].
Proof.
  intros Hdata. rewrite detectChanges_run.
  unfold ListComponent_template. rewrite Hdata. done.
Qed.

(** X6: the output depends on a history only through the last value
    bound to each input.  After any history, once a pass has run, the
    views are one per item of the [data] bound last, in order, each
    stamped from the [itemTemplate] bound last; earlier bindings and the
    passes in between leave no trace, and there is no view when either
    input is missing. *)
Theorem views_follow_last_bindings ops :
  nativeElement (detectChanges (run ops))
    = [ListComponent_template
         {| data := lastData ops; itemTemplate := lastItemTemplate ops |}] ∧
  viewsOf (nativeElement (detectChanges (run ops))) =
    match lastData ops, lastItemTemplate ops with
    | Some items, Some t => itemView t <$> items
    | _, _ => []
    end.
Proof.
  rewrite detectChanges_run, run_inputs. split; [done|].
  destruct (lastData ops) as [items|], (lastItemTemplate ops) as [t|]; [| | done | done].
  - apply (viewsOf_render items (Some t)).
  - apply (viewsOf_render items None).
Qed.

End Histories.

(** A run of [unbound_data_renders_nothing]: only the template is bound. *)
Lemma unbound_data_renders_nothing_witness :
  data (componentInstance
          (run [BindItemTemplate (Some (λ _, [Text "row"])); DetectChanges]))
    = (None : option (list nat)) ∧
  nativeElement
    (detectChanges (run [BindItemTemplate (Some (λ _, [Text "row"])); DetectChanges]))
    = (emptyList : list (Node nat)).
Proof.
  split; [reflexivity|].
  apply (unbound_data_renders_nothing
           [BindItemTemplate (Some (λ _, [Text "row"])); DetectChanges]).
  reflexivity.
Defined.

Section Events.
Context {V : Type}.

Implicit Types (evs : list (ListEvent V)) (g : list V → list V).

Lemma runEvents_snoc evs ev : runEvents (evs ++ [ev]) = stepEvent (runEvents evs) ev.
Proof. unfold runEvents. apply foldl_snoc. Qed.

Lemma noMutation_snoc evs ev :
  noMutation (evs ++ [ev]) =
  noMutation evs && match ev with Bound _ => true | MutateData _ => false end.
Proof. unfold noMutation. rewrite forallb_app. simpl. by rewrite andb_true_r. Qed.

(** A clean component shows its template on the [itemTemplate] it holds
    and on some content [d] of the array, the current one when the array
    was never changed in place. *)
Lemma runEvents_clean evs :
  dirty (runEvents evs) = false →
  ∃ d,
    nativeElement (runEvents evs) =
      [ListComponent_template
         {| data := d; itemTemplate := itemTemplate (componentInstance (runEvents evs)) |}] ∧
    (noMutation evs = true → d = data (componentInstance (runEvents evs))).
Proof.
  induction evs as [|ev evs IH] using rev_ind; [done|].
  rewrite runEvents_snoc, noMutation_snoc.
  destruct ev as [[items|t|]|g]; simpl; [done | done | |].
  - unfold detectChanges. destruct (dirty (runEvents evs)) eqn:E.
    + intros _. exists (data (componentInstance (runEvents evs))). simpl.
      split; [by destruct (componentInstance (runEvents evs))|done].
    + intros _. destruct (IH eq_refl) as (d & Hd & Hcur).
      exists d. split; [done|]. rewrite andb_true_r. exact Hcur.
  - intros Hclean. destruct (IH Hclean) as (d & Hd & _).
    exists d. split; [done|]. rewrite andb_false_r. done.
Qed.


End Events.


Section Dependence.
Context {V : Type}.

Implicit Types (S : list V) (T : TemplateRef V).

(** X7: the output uses a template only through what it gives on the
    one-slot contexts of the items: two templates that agree on
    [{ $implicit: item }] for every item of [S] render [S] alike, however
    they differ on other contexts. *)
Theorem render_template_ext S T1 T2 :
  (∀ item, item ∈ S → T1 {[ "$implicit" := item ]} = T2 {[ "$implicit" := item ]}) →
  render S (Some T1) = render S (Some T2).
Proof.
  intros Hagree. rewrite !render_unfold. do 2 f_equal.
  apply list_fmap_ext. intros i item Hi.
  unfold ngTemplateOutlet, createEmbeddedView.
  rewrite (Hagree item); [done|]. by eapply list_elem_of_lookup_2.
Qed.

Lemma fmap_constant {B : Type} (h : list (Node V) → B) S T :
  (∀ ctx ctx', T ctx = T ctx') →
  (λ item, h (T {[ "$implicit" := item ]})) <$> S = replicate (length S) (h (T ∅)).
Proof.
  intros Hconst. induction S as [|item S IH]; [done|].
  rewrite fmap_cons, IH. cbn [length replicate].
  by rewrite (Hconst {[ "$implicit" := item ]} ∅).
Qed.

(** X8: what is shown does not identify the items: under a template that
    ignores its context, two sequences of the same length render to the
    same text and to views with the same root nodes, whatever the items
    are; the items live in the contexts of the views only. *)
Theorem render_blind_to_items S S' T :
  (∀ ctx ctx', T ctx = T ctx') →
  length S = length S' →
  textOf (render S (Some T)) = textOf (render S' (Some T)) ∧
  rootNodes <$> viewsOf (render S (Some T))
    = rootNodes <$> viewsOf (render S' (Some T)).
Proof.
  intros Hconst Hlen. split.
  - rewrite !textOf_render.
    unfold ngTemplateOutlet, createEmbeddedView.
    assert (∀ S0 : list V,
      (λ item, textOf [View {[ "$implicit" := item ]} (T {[ "$implicit" := item ]})])
        <$> S0 = replicate (length S0) (textOf (T ∅))) as Hrows.
    { intros S0. rewrite <- (fmap_constant textOf S0 T Hconst).
      apply list_fmap_ext. intros _ item _.
      by rewrite textOf_singleton, textContent_View. }
    by rewrite !Hrows, Hlen.
  - rewrite !viewsOf_render_Some, <- !list_fmap_compose.
    unfold compose, itemView. cbn [rootNodes].
    by rewrite !(fmap_constant (λ ns, ns) _ T Hconst), Hlen.
Qed.

End Dependence.

(** A run of [render_template_ext]: a template that ignores its context
    and one that looks for [age], which the list never supplies. *)
Lemma render_template_ext_witness :
  render [1; 2] (Some (λ _, [Text "row"]))
  = render [1; 2]
      (Some (λ ctx, match ctx !! "age" with Some _ => [] | None => [Text "row"] end)).
Proof.
  apply (render_template_ext [1; 2] (λ _, [Text "row"])
           (λ ctx, match ctx !! "age" with Some _ => [] | None => [Text "row"] end)).
  intros item _. reflexivity.
Defined.

(** A run of [render_blind_to_items]: the same rows for 1, 2 and for
    2, 1. *)
Lemma render_blind_to_items_witness :
  textOf (render [1; 2] (Some (λ _, [Text "row"])))
  = textOf (render [2; 1] (Some (λ _, [Text "row"]))).
Proof.
  apply (render_blind_to_items [1; 2] [2; 1] (λ _, [Text "row"])); reflexivity.
Defined.

(** C10, as stated, fails: an unbound title is not a string, and yet no
    template is instantiated in the place of the header. *)
Lemma unbound_title_stamps_nothing :
  ¬ (isTitleAString (V:=unit) {| title := TitleUndefined |} = false →
     ∃ v : EmbeddedViewRef unit,
       viewsOf [CardComponent_template {| title := TitleUndefined |} []] = [v]).
Proof. intros H. destruct (H eq_refl) as [v Hv]. discriminate Hv. Qed.

Section CardMore.
Context {V : Type}.

Implicit Types (c : CardComponent V) (content : list (Node V)).

(** X9: the text of a card is the text of its title followed by the text
    of the projected content: the string itself for a string title, the
    text of the stamped template for a template title, nothing for an
    unbound title (an empty string still takes the header branch and
    shows an empty header). *)
Theorem card_text c content :
  textContent (CardComponent_template c content) =
  match title c with
  | TitleString s => s
  | TitleTemplate t => textOf (t ∅)
  | TitleUndefined => ""
  end ++ textOf content.
Proof.
  unfold CardComponent_template. rewrite textContent_Element, textOf_app.
  rewrite textOf_singleton, textContent_Element. f_equal.
  unfold titleDispatch, isTitleAString, titleTemplateWrapper.
  destruct (title c) as [s|t|]; cbn [typeof String.eqb ngIf ngIfNodes thenViewRef
    elseViewRef default asTemplateRef ngTemplateOutlet interpolate].
  - change (textOf [Element "header" [] [Text s : Node V]] = s).
    rewrite textOf_singleton, textContent_Element, textOf_singleton. done.
  - change (textOf [createEmbeddedView t ∅] = textOf (t ∅)).
    rewrite textOf_singleton. apply textContent_View.
  - done.
Qed.

(** X10: the card stamps at most one view of its own, the title template
    instantiated on an empty context, placed before whatever views the
    projected content brings; a string or unbound title stamps none. *)
Theorem card_views c content :
  viewsOf [CardComponent_template c content] =
    match title c with
    | TitleTemplate t => mkViewRef ∅ (t ∅) :: viewsOf content
    | TitleString _ | TitleUndefined => viewsOf content
    end.
Proof.
  rewrite viewsOf_singleton. unfold CardComponent_template.
  rewrite embeddedViews_Element, viewsOf_app.
  rewrite (viewsOf_singleton (Element "article" [] content)), embeddedViews_Element.
  unfold titleDispatch, isTitleAString, titleTemplateWrapper.
  destruct (title c) as [s|t|]; done.
Qed.

End CardMore.

Module Snippet2Facts.
Import Snippet2.

(** X11: the template of Snippet 2 shows the default slot of the context,
    a dash and the property [age]: stamped by the child component with a
    context holding both, whatever else it holds, it gives one view whose
    paragraph reads the two values around the dash. *)
Theorem someTemplate_text (ctx : gmap string JsValue) (n a : JsValue) :
  ctx !! "$implicit" = Some n →
  ctx !! "age" = Some a →
  ChildComponent_template (Some someTemplate) ctx =
    [View ctx [Element "p" []
                 [Text (interpolation (OwnValue n) ++ " - "
                        ++ interpolation (OwnValue a))]]] ∧
  textOf (ChildComponent_template (Some someTemplate) ctx)
    = interpolation (OwnValue n) ++ " - " ++ interpolation (OwnValue a).
Proof.
  intros Hn Ha.
  assert (ChildComponent_template (Some someTemplate) ctx =
    [View ctx [Element "p" []
                 [Text (interpolation (OwnValue n) ++ " - "
                        ++ interpolation (OwnValue a))]]])
    as Hview.
  { unfold ChildComponent_template, ngTemplateOutlet, createEmbeddedView, someTemplate,
      letBinding, getProperty. simpl. by rewrite Hn, Ha. }
  split; [exact Hview|]. rewrite Hview.
  rewrite textOf_singleton, textContent_View, textOf_singleton, textContent_Element.
  apply textOf_singleton.
Qed.

(** The paragraph of the tutorial: Joe - 42. *)
Lemma someTemplate_text_witness :
  textOf (ChildComponent_template (Some someTemplate) context) = "Joe - 42".
Proof.
  apply (someTemplate_text context (JsString "Joe")
           (JsNumber (mkSafeInteger 42 eq_refl))); reflexivity.
Defined.

(** X12: handed to [app-list], the same template finds no [age]: each row
    shows its item, the dash and nothing after it, because the list
    supplies the default slot only. *)
Theorem someTemplate_in_list (S : list JsValue) :
  viewText <$> viewsOf (render S (Some someTemplate))
  = (λ item, interpolation (OwnValue item) ++ " - ") <$> S.
Proof.
  rewrite viewsOf_render_Some, <- list_fmap_compose.
  apply list_fmap_ext. intros _ item _.
  unfold compose, viewText, itemView, someTemplate, letBinding, getProperty.
  cbn [rootNodes default].
  rewrite lookup_singleton_eq, lookup_singleton_ne by done.
  rewrite textOf_singleton, textContent_Element, textOf_singleton.
  reflexivity.
Qed.

End Snippet2Facts.

Module Snippet3Facts.
Import Snippet3.

Lemma viewText_item (p : Item) : viewText (itemView item p) = rowText p.
Proof.
  unfold viewText, itemView, item, letBinding, getProperty, rowText.
  cbn [rootNodes default]. rewrite lookup_singleton_eq.
  rewrite textOf_singleton, textContent_Element.
  rewrite textOf_cons, textOf_singleton, !textContent_Element.
  rewrite textOf_cons, !textOf_singleton, textContent_Element, textOf_singleton.
  cbn [textContent].
  by rewrite !string_app_assoc.
Qed.

(** X13: with the parent template of Snippet 3.2, [app-list] shows one
    row per product, in the order of the data, each reading the id, a
    dash, the name, then the stars with the rating; the text of the whole
    list is these rows end to end. *)
Theorem item_rows (S : list Item) :
  viewText <$> viewsOf (render S (Some item)) = rowText <$> S ∧
  textOf (render S (Some item)) = joinText (rowText <$> S).
Proof.
  split.
  - rewrite viewsOf_render_Some, <- list_fmap_compose.
    apply list_fmap_ext. intros _ p _. apply viewText_item.
  - rewrite textOf_render. f_equal. apply list_fmap_ext. intros _ p _.
    unfold ngTemplateOutlet, createEmbeddedView.
    rewrite textOf_singleton, textContent_View. apply viewText_item.
Qed.

End Snippet3Facts.

(** The three products of the tutorial. *)
Example Snippet3_data_rows :
  viewText <$> viewsOf (render Snippet3.data (Some Snippet3.item))
  = [" 4 - Laptop Stars: 3 "; " 5 - Phone Stars: 4 "; " 6 - Mice Stars: 4 "].
Proof. vm_compute. reflexivity. Qed.
